(** * Calculadora de Decaimento UERJ: the numeric core of [app.py]

    A shallow embedding of the computational part of [src/app.py]: the
    unit table and the four "CÁLCULOS MATEMÁTICOS" functions, the vectors
    built by [run_simple_mode], and the three handlers of [render_manager]
    that mutate [st.session_state.isotopes]; then the default selection of
    [run_simple_mode], the axis of [setup_graph_layout], the frame of
    [show_datatable] and the header row of [generate_pdf_report].

    Numbers.  Python floats (and the ints that mix with them) are read as
    real numbers: [*], [/], [np.exp] and [np.log] are the operations of [R],
    so rounding, overflow and NaN are outside the model.  Facts stated here
    are facts about the formulas the code evaluates.

    Dictionaries.  [CONVERSIONS_TO_YEARS] is a literal whose key order is
    used by the select boxes ([index=4]), so it is an association list read
    with [dict_get] (Python's [d.get(k, default)]).  The isotope table is
    mutated by key and is a [gmap string Isotope].

    Streamlit.  Widgets are inputs of the embedded functions; the calls that
    report to the user or to the disk ([st.success], [st.error],
    [save_isotopes_to_file], [st.rerun]) are recorded, in program order, as a
    list of [event]s next to the new table. *)

From Stdlib Require Import Reals Lra List Ascii.
From stdpp Require Import gmap strings.
Import ListNotations.

Local Open Scope R_scope.

(** ** Constants *)

Definition AVOGADRO_NUMBER : R := 6.02214076e23.

(** One value of the isotope table: the dict with keys ["lambda"],
    ["half_life"], ["unit"] and ["atomic_weight"]. *)
Record Isotope : Type := mkIsotope {
  lambda : R;
  half_life : R;
  unit : string;
  atomic_weight : R
}.

Definition DEFAULT_ISOTOPES : gmap string Isotope :=
  <["Césio-137" := mkIsotope 0.02298 30.17 "anos" 136.907]> (
  <["Bário-137m" := mkIsotope 236.6 2.55 "minutos" 136.9]> (
  <["Carbono-14" := mkIsotope 1.20968e-4 5730 "anos" 14.003]> (
  <["Tório-232" := mkIsotope 4.95105e-11 1.4e10 "anos" 232.038]> (
  <["Cobalto-60" := mkIsotope 0.1315 5.27 "anos" 59.933]> (
  <["Iodo-131" := mkIsotope 31.55 8.02 "dias" 130.906]> (
  <["Urânio-238" := mkIsotope 1.551e-10 4.468e9 "anos" 238.050]> ∅)))))).

Definition CONVERSIONS_TO_YEARS : list (string * R) :=
  [ ("segundos", 1 / (365.25 * 24 * 60 * 60));
    ("minutos", 1 / (365.25 * 24 * 60));
    ("horas", 1 / (365.25 * 24));
    ("dias", 1 / 365.25);
    ("anos", 1.0) ].

(** [list(d.keys())] of a literal dict. *)
Definition keys {V : Type} (d : list (string * V)) : list string := map fst d.

(** [d.get(k, default)]: the value of the first entry under [k], else the
    default; it never raises. *)
Fixpoint dict_get {V : Type} (d : list (string * V)) (k : string) (default : V) : V :=
  match d with
  | [] => default
  | (k', v) :: rest => if String.eqb k' k then v else dict_get rest k default
  end.

(** ** PERSISTÊNCIA *)

(** [load_isotopes_from_file()].  The argument is what "isotopes.json"
    holds: [Some data] when the file exists and parses, [None] when it is
    missing or unreadable, in which case a copy of the defaults is used. *)
Definition load_isotopes_from_file (file : option (gmap string Isotope))
    : gmap string Isotope :=
  match file with
  | Some data => data
  | None => DEFAULT_ISOTOPES
  end.

(** ** CÁLCULOS MATEMÁTICOS *)

Definition convert_time_to_years (value : R) (unit : string) : R :=
  value * dict_get CONVERSIONS_TO_YEARS unit 1.

Definition calculate_simple_decay (N0 lam t_years : R) : R :=
  N0 * exp (- lam * t_years).

Definition mass_to_nuclei (mass_g atomic_weight : R) : R :=
  if Rle_dec atomic_weight 0 then 0
  else (mass_g / atomic_weight) * AVOGADRO_NUMBER.

Definition nuclei_to_mass (nuclei atomic_weight : R) : R :=
  (nuclei / AVOGADRO_NUMBER) * atomic_weight.

(** The error taxonomy of the specification (its section 7) and the two
    ways a call can end. *)
Inductive error : Type :=
  | NotFoundError
  | InvalidArgumentError
  | PreconditionError.

Inductive outcome (A : Type) : Type :=
  | Returns (a : A)
  | Fails (e : error).

Arguments Returns {A} a.
Arguments Fails {A} e.

(** How a call [convert_time_to_years(value, unit)] ends.  The body is the
    single statement [return value * CONVERSIONS_TO_YEARS.get(unit, 1)];
    there is no [raise] and [dict.get] with a default has no failing case,
    so every call returns. *)
Definition call_convert_time_to_years (value : R) (unit : string) : outcome R :=
  Returns (convert_time_to_years value unit).

(** ** run_simple_mode *)

(** [np.linspace(start, stop, num)]: [num] samples [start + i * step] with
    [step = (stop - start) / (num - 1)]. *)
Definition np_linspace (start stop : R) (num : nat) : list R :=
  map (fun i : nat => start + INR i * ((stop - start) / INR (num - 1))) (seq 0 num).

(** The values of the keyed widgets of the "Parâmetros (Simples)" column.
    [simple_steps] is the integer of the slider "Passos (Intervalos)". *)
Record simple_widgets : Type := mkSimpleWidgets {
  simple_lam : R;
  simple_t : R;
  simple_unit : string;
  simple_mode : string;
  simple_mass : R;
  simple_n0 : R;
  simple_steps : nat
}.

(** The local variables of [run_simple_mode], each under its own name, as
    functions of the selected table entry [iso_data] and the widgets. *)
Section RunSimpleMode.

Variable iso_data : Isotope.
Variable w : simple_widgets.

Definition atomic_w : R := atomic_weight iso_data.

Definition N0 : R :=
  if String.eqb (simple_mode w) "Massa (g)"
  then mass_to_nuclei (simple_mass w) atomic_w
  else simple_n0 w.

Definition t_years_total : R := convert_time_to_years (simple_t w) (simple_unit w).

Definition Nt_final : R := calculate_simple_decay N0 (simple_lam w) t_years_total.

Definition max_t : R := if Rgt_dec (simple_t w) 0 then simple_t w else 100.

Definition t_plot : list R := np_linspace 0 max_t (simple_steps w + 1).

Definition t_years_vec : list R :=
  map (fun x => convert_time_to_years x (simple_unit w)) t_plot.

Definition Nt_vec : list R :=
  map (calculate_simple_decay N0 (simple_lam w)) t_years_vec.

Definition y_vals : list R :=
  if String.eqb (simple_mode w) "Massa (g)"
  then map (fun n => nuclei_to_mass n atomic_w) Nt_vec
  else Nt_vec.

Definition res_display : R :=
  if String.eqb (simple_mode w) "Massa (g)"
  then nuclei_to_mass Nt_final atomic_w
  else Nt_final.

Definition unit_label : string :=
  if String.eqb (simple_mode w) "Massa (g)" then "g" else "Núcleos".

(** The rows handed to the chart and to the table: [zip(t_plot, y_vals)]. *)
Definition series : list (R * R) := combine t_plot y_vals.

End RunSimpleMode.

(** ** render_manager *)

(** What a handler does besides changing the table, in program order. *)
Inductive event : Type :=
  | save_isotopes_to_file (data : gmap string Isotope)
  | st_success (msg : string)
  | st_error (msg : string)
  | st_rerun
  | raise_KeyError (key : string).

(** Form "add", on "Salvar": the statements run with the values [name],
    [mass], [hl] and [unit] that the four widgets deliver.  The handler has
    a branch of its own for [hl_years <= 0]; which values the two number
    inputs can deliver is the matter of [render_manager_add_form] below. *)
Definition render_manager_add (name : string) (mass hl : R) (unit : string)
    (isotopes : gmap string Isotope) : gmap string Isotope * list event :=
  if String.eqb name "" then (isotopes, [])
  else
    let hl_years := convert_time_to_years hl unit in
    let lam := if Rgt_dec hl_years 0 then ln 2 / hl_years else 0 in
    let isotopes' := <[name := mkIsotope lam hl unit mass]> isotopes in
    (isotopes', [save_isotopes_to_file isotopes'; st_success "Adicionado!"; st_rerun]).

(** [st.number_input(label, min_value)], called without [value]: the
    second positional parameter is the lower bound, the widget starts at
    that bound, and the script never receives a value below it: an entry
    below the bound gives the bound. *)
Definition st_number_input (min_value entry : R) : R :=
  if Rlt_dec entry min_value then min_value else entry.


(** Button "Remover" with the selected name [to_del].  [del d[k]] raises
    [KeyError] when [k] is not a key. *)
Definition render_manager_remove (to_del : string)
    (isotopes : gmap string Isotope) : gmap string Isotope * list event :=
  if decide (1 < size isotopes)%nat then
    match isotopes !! to_del with
    | Some _ =>
        let isotopes' := delete to_del isotopes in
        (isotopes', [save_isotopes_to_file isotopes'; st_success "Removido!"; st_rerun])
    | None => (isotopes, [raise_KeyError to_del])
    end
  else (isotopes, [st_error "Mínimo 1 isótopo necessário."]).

(** Button "Restaurar Padrões". *)
Definition render_manager_reset (isotopes : gmap string Isotope)
    : gmap string Isotope * list event :=
  (DEFAULT_ISOTOPES, [save_isotopes_to_file DEFAULT_ISOTOPES; st_rerun]).

(** One user action on the manager page, and a session as a list of them. *)
Inductive action : Type :=
  | Salvar (name : string) (mass hl : R) (unit : string)
  | Remover (to_del : string)
  | RestaurarPadroes.

Definition handle (a : action) (isotopes : gmap string Isotope)
    : gmap string Isotope * list event :=
  match a with
  | Salvar name mass hl unit => render_manager_add name mass hl unit isotopes
  | Remover to_del => render_manager_remove to_del isotopes
  | RestaurarPadroes => render_manager_reset isotopes
  end.

Fixpoint session (acts : list action) (isotopes : gmap string Isotope)
    : gmap string Isotope :=
  match acts with
  | [] => isotopes
  | a :: rest => session rest (fst (handle a isotopes))
  end.

(** ** run_simple_mode: the default selection *)

(** [l.index(x)]: the position of the first occurrence; [None] stands for
    the [ValueError] raised when there is none. *)
Fixpoint list_index (x : string) (l : list string) : option nat :=
  match l with
  | [] => None
  | y :: rest =>
      if String.eqb y x then Some 0%nat
      else match list_index x rest with
           | Some i => Some (S i)
           | None => None
           end
  end.

(** [idx_padrao], from [iso_list = list(st.session_state.isotopes.keys())]:
    [0] unless ["Césio-137" in iso_list], in which case its index. *)
Definition idx_padrao (iso_list : list string) : nat :=
  if existsb (String.eqb "Césio-137") iso_list then
    match list_index "Césio-137" iso_list with
    | Some i => i
    | None => 0%nat
    end
  else 0%nat.

(** ** setup_graph_layout *)

(** The arguments of [fig.update_layout] that depend on the parameters.
    The constant styling (height, fonts, hover mode) and [ticktext], a
    decimal rendering of [tickvals], are not part of the record. *)
Record graph_layout : Type := mkGraphLayout {
  title_text : string;
  xaxis_title : string;
  yaxis_title : string;
  yaxis_type : string;
  template : string;
  xaxis_range : R * R;
  tickvals : list R
}.

Definition setup_graph_layout (title x_unit y_unit : string) (is_log : bool)
    (theme : string) (max_x : R) : graph_layout :=
  let custom_ticks := np_linspace 0 max_x 6 in
  let x_range_max := max_x * 1.05 in
  {| title_text := title;
     xaxis_title := String.append "Tempo (" (String.append x_unit ")");
     yaxis_title := String.append "Quantidade (" (String.append y_unit ")");
     yaxis_type := if is_log then "log" else "linear";
     template := theme;
     xaxis_range := (0, x_range_max);
     tickvals := custom_ticks |}.

(** The call made by [run_simple_mode], with the selected name, the
    checkbox "Escala Log (Y)" and the chart theme. *)
Definition simple_layout (selected_iso : string) (log_scale : bool)
    (chart_theme : string) (iso_data : Isotope) (w : simple_widgets) : graph_layout :=
  setup_graph_layout (String.append "Decaimento de " selected_iso)
    (simple_unit w) (unit_label w) log_scale chart_theme (max_t w).

(** ** show_datatable *)

(** [d[k] = v] on a dict kept in insertion order: an existing key keeps its
    place and takes the new value, a new key goes last. *)
Fixpoint dict_set {V : Type} (d : list (string * V)) (k : string) (v : V)
    : list (string * V) :=
  match d with
  | [] => [(k, v)]
  | (k', v') :: rest =>
      if String.eqb k' k then (k', v) :: rest else (k', v') :: dict_set rest k v
  end.

(** [d.update(other)]. *)
Definition dict_update {V : Type} (d other : list (string * V)) : list (string * V) :=
  fold_left (fun acc kv => dict_set acc (fst kv) (snd kv)) other d.

(** [pd.DataFrame(data)] for a dict of columns: the columns in dict order;
    [None] stands for the [ValueError] raised when two columns differ in
    length. *)
Definition pd_DataFrame (data : list (string * list R)) : option (list (string * list R)) :=
  match data with
  | [] => Some []
  | (_, c) :: rest =>
      if forallb (fun kc => Nat.eqb (length (snd kc)) (length c)) rest
      then Some data else None
  end.

(** The frame [df] that [show_datatable] builds and hands to the CSV, PDF
    and table widgets. *)
Definition show_datatable_df (t_vec : list R) (data_cols : list (string * list R))
    (t_unit : string) : option (list (string * list R)) :=
  let df_dict := [(String.append "Tempo (" (String.append t_unit ")"), t_vec)] in
  let df_dict := dict_update df_dict data_cols in
  pd_DataFrame df_dict.

(** The call made by [run_simple_mode]. *)
Definition simple_df (iso_data : Isotope) (w : simple_widgets)
    : option (list (string * list R)) :=
  let data_dict :=
    [(String.append "Quantidade (" (String.append (unit_label w) ")"), y_vals iso_data w)] in
  show_datatable_df (t_plot w) data_dict (simple_unit w).

(** ** generate_pdf_report: the header row *)

(** Header texts are sliced by character count, so here a [str] is the
    list of its Unicode code points. *)
Definition ord (c : Ascii.ascii) : N := Ascii.N_of_ascii c.

(** [s.startswith(p)]. *)
Fixpoint startswith (p s : list N) : bool :=
  match p, s with
  | [], _ => true
  | _ :: _, [] => false
  | a :: p', b :: s' => N.eqb a b && startswith p' s'
  end.

(** The scan of [str.replace] for a non-empty [old]: left to right, an
    occurrence found at the current position is replaced and skipped whole
    ([skip] counts the characters of it still to pass). *)
Fixpoint replace_from (old new : list N) (skip : nat) (s : list N) : list N :=
  match s with
  | [] => []
  | c :: rest =>
      match skip with
      | S k => replace_from old new k rest
      | O =>
          if startswith old s
          then new ++ replace_from old new (length old - 1) rest
          else c :: replace_from old new 0 rest
      end
  end.

(** [s.replace(old, new)]; with an empty [old], [new] is put before every
    character and at the end. *)
Definition str_replace (s old new : list N) : list N :=
  match old with
  | [] => new ++ flat_map (fun c => c :: new) s
  | _ :: _ => replace_from old new 0 s
  end.

(** [clean_col = str(col).replace("(", "").replace(")", "").replace("e-", "E-")]. *)
Definition clean_col (col : list N) : list N :=
  str_replace (str_replace (str_replace col [ord "("%char] []) [ord ")"%char] [])
    [ord "e"%char; ord "-"%char] [ord "E"%char; ord "-"%char].

(** The text of a header cell: [clean_col[:20]]. *)
Definition header_cell (col : list N) : list N := firstn 20 (clean_col col).

(** * Properties *)

(** ** The unit table *)

Example keys_CONVERSIONS_TO_YEARS :
  keys CONVERSIONS_TO_YEARS = ["segundos"; "minutos"; "horas"; "dias"; "anos"].
Proof. reflexivity. Qed.

(** Closes [~ In k (keys d)] for a literal key and a literal table. *)
Ltac not_a_key :=
  let H := fresh "H" in
  cbn; intros H; repeat destruct H as [H | H]; try discriminate H; exact H.

Lemma dict_get_absent {V : Type} (d : list (string * V)) (k : string) (default : V) :
  ~ In k (keys d) -> dict_get d k default = default.
Proof.
  induction d as [| [k' v] rest IH]; intros Hk; [reflexivity |].
  cbn [dict_get]. destruct (String.eqb_spec k' k) as [-> | _].
  - exfalso. apply Hk. now left.
  - apply IH. intros Hin. apply Hk. now right.
Qed.

Lemma dict_get_present {V : Type} (d : list (string * V)) (k : string) (default : V) :
  In k (keys d) -> In (k, dict_get d k default) d.
Proof.
  induction d as [| [k' v] rest IH]; intros Hk; [destruct Hk |].
  cbn [dict_get]. destruct (String.eqb_spec k' k) as [-> | Hne].
  - now left.
  - right. apply IH. destruct Hk as [Heq | Hin]; [contradiction | exact Hin].
Qed.

(** Every factor the table can deliver, the default [1] included, is
    strictly positive. *)
Lemma factor_pos (unit : string) : 0 < dict_get CONVERSIONS_TO_YEARS unit 1.
Proof.
  unfold CONVERSIONS_TO_YEARS. cbn [dict_get].
  repeat (match goal with |- context [String.eqb ?a ?b] => destruct (String.eqb a b) end;
          [lra |]).
  lra.
Qed.

Lemma convert_time_to_years_sign (value : R) (unit : string) :
  (0 < convert_time_to_years value unit <-> 0 < value).
Proof.
  unfold convert_time_to_years. pose proof (factor_pos unit) as Hf. split; intros H; nra.
Qed.

Lemma exp_monotone (x y : R) : x <= y -> exp x <= exp y.
Proof.
  intros [Hlt | ->]; [left; now apply exp_increasing | right; reflexivity].
Qed.

(** The functions on the inputs of the specification's scenarios. *)
Example convert_730_5_dias : convert_time_to_years 730.5 "dias" = 2.
Proof. unfold convert_time_to_years. cbn. lra. Qed.

Example convert_segundos : convert_time_to_years 31557600 "segundos" = 1.
Proof. unfold convert_time_to_years. cbn. lra. Qed.

Example mass_to_nuclei_cesium :
  4.398e21 < mass_to_nuclei 1.0 136.907 < 4.399e21.
Proof.
  unfold mass_to_nuclei, AVOGADRO_NUMBER.
  destruct (Rle_dec 136.907 0) as [H | _]; [lra |]. lra.
Qed.

Example mass_to_nuclei_clamp : mass_to_nuclei 1.0 0 = 0.
Proof. unfold mass_to_nuclei. destruct (Rle_dec 0 0) as [_ | H]; [reflexivity | lra]. Qed.

(** ** DecayEngine *)

(** C1, as the claim states it, fails: the unit ["semanas"] is not one of
    the five keys, and the call returns [5] (the value times the default
    factor [1]) instead of failing with [InvalidArgumentError]. *)
Lemma convert_unknown_unit_returns :
  ~ In "semanas"%string (keys CONVERSIONS_TO_YEARS) /\
  call_convert_time_to_years 5 "semanas" = Returns 5 /\
  call_convert_time_to_years 5 "semanas" <> Fails InvalidArgumentError.
Proof.
  split; [| split].
  - not_a_key.
  - unfold call_convert_time_to_years, convert_time_to_years. cbn. f_equal. lra.
  - discriminate.
Qed.

(** C1 (amended): for every value and every unit string that is not one of
    the five keys of the table, the conversion returns the value itself
    (factor [1]); it never fails. *)
Theorem convert_unknown_unit_identity (value : R) (unit : string) :
  ~ In unit (keys CONVERSIONS_TO_YEARS) ->
  call_convert_time_to_years value unit = Returns value.
Proof.
  intros Hk. unfold call_convert_time_to_years, convert_time_to_years.
  rewrite (dict_get_absent _ _ _ Hk). f_equal. lra.
Qed.

Lemma convert_unknown_unit_identity_witness :
  call_convert_time_to_years 7 "meses" = Returns 7.
Proof.
  apply (convert_unknown_unit_identity 7 "meses"). not_a_key.
Defined.

(** C4: for [lam >= 0], [N0 >= 0] and [t2 > t1 >= 0], the decay law gives
    at [t2] at most what it gives at [t1]. *)
Theorem decay_non_increasing (N0 lam t1 t2 : R) :
  0 <= lam -> 0 <= N0 -> 0 <= t1 -> t1 < t2 ->
  calculate_simple_decay N0 lam t2 <= calculate_simple_decay N0 lam t1.
Proof.
  intros Hlam HN0 Ht1 Ht. unfold calculate_simple_decay.
  apply Rmult_le_compat_l; [exact HN0 |].
  apply exp_monotone. nra.
Qed.

Lemma decay_non_increasing_witness :
  calculate_simple_decay 1.0e20 0.02298 30.17 <= calculate_simple_decay 1.0e20 0.02298 0.
Proof. apply (decay_non_increasing 1.0e20 0.02298 0 30.17); lra. Defined.

(** C6: for [m >= 0] and [w > 0], converting a mass to a count and back
    gives the mass again (exactly, over the reals). *)
Theorem mass_nuclei_round_trip (m w : R) :
  0 <= m -> 0 < w -> nuclei_to_mass (mass_to_nuclei m w) w = m.
Proof.
  intros _ Hw. unfold nuclei_to_mass, mass_to_nuclei, AVOGADRO_NUMBER.
  destruct (Rle_dec w 0) as [Hle | _]; [lra |].
  field. split; lra.
Qed.

Lemma mass_nuclei_round_trip_witness :
  nuclei_to_mass (mass_to_nuclei 1.0 136.907) 136.907 = 1.0.
Proof. apply (mass_nuclei_round_trip 1.0 136.907); lra. Defined.

(** C9: at time zero the decay law returns the initial quantity, for every
    [N0] and every [lam]. *)
Theorem decay_at_zero (N0 lam : R) : calculate_simple_decay N0 lam 0 = N0.
Proof.
  unfold calculate_simple_decay. rewrite Rmult_0_r, exp_0. ring.
Qed.

(** ** np.linspace *)

Lemma length_np_linspace (start stop : R) (num : nat) :
  length (np_linspace start stop num) = num.
Proof. unfold np_linspace. now rewrite length_map, length_seq. Qed.

Lemma nth_np_linspace (start stop d : R) (num i : nat) :
  (i < num)%nat ->
  nth i (np_linspace start stop num) d
  = start + INR i * ((stop - start) / INR (num - 1)).
Proof.
  intros Hi. unfold np_linspace.
  set (f := fun j : nat => start + INR j * ((stop - start) / INR (num - 1))).
  rewrite (nth_indep _ d (f 0%nat)) by now rewrite length_map, length_seq.
  rewrite map_nth, seq_nth by exact Hi. reflexivity.
Qed.

Lemma last_np_linspace (start stop d : R) (n : nat) :
  (0 < n)%nat -> List.last (np_linspace start stop (n + 1)) d = stop.
Proof.
  intros Hn. unfold np_linspace.
  rewrite Nat.add_1_r, seq_S, map_app, Nat.add_0_l. cbn [map].
  rewrite last_last. replace (S n - 1)%nat with n by lia.
  assert (INR n <> 0) by (apply not_0_INR; lia).
  field. assumption.
Qed.

Lemma last_map {A B : Type} (f : A -> B) (l : list A) (d : A) :
  List.last (map f l) (f d) = f (List.last l d).
Proof.
  induction l as [| x [| y l'] IH]; [reflexivity | reflexivity |].
  cbn [map List.last] in *. exact IH.
Qed.

(** ** The series of run_simple_mode *)

Lemma length_t_plot (w : simple_widgets) :
  length (t_plot w) = (simple_steps w + 1)%nat.
Proof. apply length_np_linspace. Qed.

Lemma length_y_vals (iso_data : Isotope) (w : simple_widgets) :
  length (y_vals iso_data w) = (simple_steps w + 1)%nat.
Proof.
  unfold y_vals, Nt_vec, t_years_vec.
  destruct (String.eqb _ _); now rewrite ?length_map, length_t_plot.
Qed.

Lemma max_t_default (w : simple_widgets) : simple_t w <= 0 -> max_t w = 100.
Proof. intros Ht. unfold max_t. destruct (Rgt_dec (simple_t w) 0); [lra | reflexivity]. Qed.

Lemma last_t_years_vec (w : simple_widgets) :
  (0 < simple_steps w)%nat ->
  List.last (t_years_vec w) 0 = convert_time_to_years (max_t w) (simple_unit w).
Proof.
  intros Hs. unfold t_years_vec.
  set (f := fun x : R => convert_time_to_years x (simple_unit w)).
  replace 0 with (f 0) by (unfold f, convert_time_to_years; ring).
  rewrite last_map. unfold f, t_plot. now rewrite last_np_linspace.
Qed.

Lemma map_fst_combine {A B : Type} (l : list A) (l' : list B) :
  length l = length l' -> map fst (combine l l') = l.
Proof.
  revert l'. induction l as [| x l IH]; intros [| y l'] Hlen;
    try reflexivity; try discriminate Hlen.
  cbn. f_equal. apply IH. now injection Hlen.
Qed.

Lemma map_snd_combine {A B : Type} (l : list A) (l' : list B) :
  length l = length l' -> map snd (combine l l') = l'.
Proof.
  revert l'. induction l as [| x l IH]; intros [| y l'] Hlen;
    try reflexivity; try discriminate Hlen.
  cbn. f_equal. apply IH. now injection Hlen.
Qed.

(** C5: the series of a computation request has exactly [steps + 1] rows,
    its time column is [t_plot], whose first value is [0] and whose
    consecutive values all differ by the same step [max_t / steps]. *)
Theorem series_shape (iso_data : Isotope) (w : simple_widgets) :
  length (series iso_data w) = (simple_steps w + 1)%nat /\
  map fst (series iso_data w) = t_plot w /\
  map snd (series iso_data w) = y_vals iso_data w /\
  (forall d, nth 0 (t_plot w) d = 0) /\
  (forall i d, (i < simple_steps w)%nat ->
     nth (S i) (t_plot w) d - nth i (t_plot w) d = max_t w / INR (simple_steps w)).
Proof.
  pose proof (length_t_plot w) as Lt. pose proof (length_y_vals iso_data w) as Ly.
  unfold series. repeat split.
  - rewrite length_combine, Lt, Ly. lia.
  - apply map_fst_combine. congruence.
  - apply map_snd_combine. congruence.
  - intros d. unfold t_plot. rewrite nth_np_linspace by lia. cbn [INR]. ring.
  - intros i d Hi. unfold t_plot. rewrite !nth_np_linspace by lia.
    replace (simple_steps w + 1 - 1)%nat with (simple_steps w) by lia.
    rewrite S_INR. assert (INR (simple_steps w) <> 0) by (apply not_0_INR; lia).
    field. assumption.
Qed.

Lemma series_shape_witness :
  let w := mkSimpleWidgets 0.02298 100 "anos" "Núcleos (N0)" 1 1.0e20 10 in
  nth 1 (t_plot w) 0 - nth 0 (t_plot w) 0 = 10.
Proof.
  intros w.
  destruct (series_shape (mkIsotope 0.02298 30.17 "anos" 136.907) w)
    as (_ & _ & _ & _ & Hstep).
  rewrite (Hstep 0%nat 0) by (cbn; lia).
  unfold max_t. cbn. destruct (Rgt_dec 100 0); lra.
Defined.

(** C7, as the claim states it, fails: with a duration of [0] and the unit
    ["dias"], the last instant at which the decay law is evaluated is
    [100 / 365.25] years (one hundred days), not [100] years. *)
Lemma default_span_is_not_100_years :
  let w := mkSimpleWidgets 0.02298 0 "dias" "Núcleos (N0)" 1 1.0e20 10 in
  simple_t w <= 0 /\
  List.last (t_plot w) 0 = 100 /\
  List.last (t_years_vec w) 0 = 100 / 365.25 /\
  List.last (t_years_vec w) 0 <> 100.
Proof.
  intros w.
  assert (Hs : (0 < simple_steps w)%nat) by (cbn; lia).
  assert (Ht : simple_t w <= 0) by (cbn; lra).
  assert (Hy : List.last (t_years_vec w) 0 = 100 / 365.25).
  { rewrite (last_t_years_vec w Hs), (max_t_default w Ht).
    unfold convert_time_to_years. cbn. lra. }
  repeat split.
  - exact Ht.
  - unfold t_plot. rewrite (last_np_linspace _ _ _ _ Hs). now apply max_t_default.
  - exact Hy.
  - rewrite Hy. lra.
Qed.

Lemma factor_one_iff (unit : string) :
  dict_get CONVERSIONS_TO_YEARS unit 1 = 1
  <-> unit = "anos"%string \/ ~ In unit (keys CONVERSIONS_TO_YEARS).
Proof.
  destruct (in_dec String.string_dec unit (keys CONVERSIONS_TO_YEARS)) as [Hin | Hout].
  - cbn in Hin. destruct Hin as [<- | [<- | [<- | [<- | [<- | []]]]]]; cbn;
      (split; [intros H; try (exfalso; lra); now left
              | intros [H | H]; [try discriminate H; lra
                                | exfalso; apply H; cbn; tauto]]).
  - split; [intros _; now right | intros _; now apply dict_get_absent].
Qed.

Lemma factor_below_one (unit : string) :
  In unit ["segundos"; "minutos"; "horas"; "dias"]%string ->
  dict_get CONVERSIONS_TO_YEARS unit 1 < 1.
Proof.
  intros [<- | [<- | [<- | [<- | []]]]]; cbn; lra.
Qed.

(** C7 (amended): when the duration entered is [<= 0], the span defaults to
    [100] in the selected time unit: the time column runs from [0] to [100]
    in that unit, and the decay law is evaluated up to [100] units converted
    to years.  That instant is [100] years exactly when the unit is ["anos"]
    or is none of the five keys of the table (factor [1]); for ["segundos"],
    ["minutos"], ["horas"] and ["dias"] it is less than [100] years. *)
Theorem default_span_in_selected_unit (w : simple_widgets) :
  simple_t w <= 0 -> (0 < simple_steps w)%nat ->
  max_t w = 100 /\
  t_plot w = np_linspace 0 100 (simple_steps w + 1) /\
  nth 0 (t_plot w) 0 = 0 /\
  List.last (t_plot w) 0 = 100 /\
  List.last (t_years_vec w) 0 = convert_time_to_years 100 (simple_unit w) /\
  (List.last (t_years_vec w) 0 = 100
   <-> simple_unit w = "anos"%string
       \/ ~ In (simple_unit w) (keys CONVERSIONS_TO_YEARS)) /\
  (In (simple_unit w) ["segundos"; "minutos"; "horas"; "dias"]%string ->
   List.last (t_years_vec w) 0 < 100).
Proof.
  intros Ht Hs. pose proof (max_t_default w Ht) as Hm.
  assert (Hy : List.last (t_years_vec w) 0 = convert_time_to_years 100 (simple_unit w))
    by (now rewrite last_t_years_vec, Hm).
  split; [exact Hm |].
  split; [unfold t_plot; now rewrite Hm |].
  split; [unfold t_plot; rewrite nth_np_linspace by lia; cbn [INR]; ring |].
  split; [unfold t_plot; now rewrite last_np_linspace, Hm |].
  split; [exact Hy |].
  rewrite Hy. unfold convert_time_to_years. split.
  - rewrite <- (factor_one_iff (simple_unit w)). split; intros H; lra.
  - intros Hin. pose proof (factor_below_one _ Hin). lra.
Qed.

Lemma default_span_in_selected_unit_witness :
  let w := mkSimpleWidgets 0.02298 (-5) "horas" "Massa (g)" 1 1.0e20 10 in
  List.last (t_plot w) 0 = 100 /\
  List.last (t_years_vec w) 0 = convert_time_to_years 100 "horas" /\
  List.last (t_years_vec w) 0 < 100.
Proof.
  intros w.
  destruct (default_span_in_selected_unit w) as (_ & _ & _ & Hl & Hy & _ & Hlt);
    [cbn; lra | cbn; lia |].
  split; [exact Hl | split; [exact Hy |]].
  apply Hlt. cbn. tauto.
Defined.

(** ** IsotopeCatalog: the handlers of render_manager *)

Example size_DEFAULT_ISOTOPES : size DEFAULT_ISOTOPES = 7%nat.
Proof. reflexivity. Qed.

Lemma render_manager_add_named (name : string) (mass hl : R) (unit : string)
    (isotopes : gmap string Isotope) :
  name <> ""%string ->
  render_manager_add name mass hl unit isotopes =
    let lam := if Rgt_dec (convert_time_to_years hl unit) 0
               then ln 2 / convert_time_to_years hl unit else 0 in
    let isotopes' := <[name := mkIsotope lam hl unit mass]> isotopes in
    (isotopes', [save_isotopes_to_file isotopes'; st_success "Adicionado!"; st_rerun]).
Proof.
  intros Hn. unfold render_manager_add.
  destruct (String.eqb_spec name "") as [He | _]; [contradiction | reflexivity].
Qed.

Lemma size_insert_pos (name : string) (v : Isotope) (isotopes : gmap string Isotope) :
  (1 <= size (<[name := v]> isotopes))%nat.
Proof.
  pose proof (insert_non_empty isotopes name v) as Hne.
  apply map_size_non_empty_iff in Hne. lia.
Qed.

(** Each handler leaves a non-empty table non-empty. *)
Lemma handle_keeps_one (a : action) (isotopes : gmap string Isotope) :
  (1 <= size isotopes)%nat -> (1 <= size (fst (handle a isotopes)))%nat.
Proof.
  intros Hsz. destruct a as [name mass hl unit | to_del |]; cbn [handle].
  - unfold render_manager_add. destruct (String.eqb name ""); cbn [fst].
    + exact Hsz.
    + apply size_insert_pos.
  - unfold render_manager_remove. case_decide as Hlen; [| exact Hsz].
    destruct (isotopes !! to_del) as [x |] eqn:Hx; cbn [fst]; [| exact Hsz].
    rewrite map_size_delete, Hx. cbn. lia.
  - cbn [render_manager_reset fst]. rewrite size_DEFAULT_ISOTOPES. lia.
Qed.



Lemma st_number_input_ge (min_value entry : R) :
  min_value <= st_number_input min_value entry.
Proof.
  unfold st_number_input. destruct (Rlt_dec entry min_value); lra.
Qed.




(** C8: when the form stores an isotope from a (positive) half-life, the
    stored decay constant is [ln 2] divided by the half-life converted to
    years. *)
Theorem add_stores_decay_constant (name : string) (mass hl : R) (unit : string)
    (isotopes : gmap string Isotope) :
  name <> ""%string -> 0 < hl ->
  fst (render_manager_add name mass hl unit isotopes) !! name
    = Some (mkIsotope (ln 2 / convert_time_to_years hl unit) hl unit mass).
Proof.
  intros Hn Hhl. rewrite render_manager_add_named by exact Hn. cbn zeta. cbn [fst].
  rewrite lookup_insert_eq.
  destruct (Rgt_dec _ _) as [_ | H]; [reflexivity |].
  exfalso. apply H, Rlt_gt, convert_time_to_years_sign, Hhl.
Qed.

Lemma add_stores_decay_constant_witness :
  fst (render_manager_add "Iodo-131" 130.906 8.02 "dias" DEFAULT_ISOTOPES) !! "Iodo-131"
    = Some (mkIsotope (ln 2 / convert_time_to_years 8.02 "dias") 8.02 "dias" 130.906).
Proof.
  apply (add_stores_decay_constant "Iodo-131" 130.906 8.02 "dias" DEFAULT_ISOTOPES);
    [discriminate | lra].
Defined.

Lemma session_keeps_one (acts : list action) (isotopes : gmap string Isotope) :
  (1 <= size isotopes)%nat -> (1 <= size (session acts isotopes))%nat.
Proof.
  revert isotopes. induction acts as [| a rest IH]; intros isotopes Hsz; cbn [session].
  - exact Hsz.
  - apply IH, handle_keeps_one, Hsz.
Qed.

(** C3: on a table with exactly one entry, "Remover" is refused with the
    error message "Mínimo 1 isótopo necessário." and the table stays as it
    is (nothing is saved); and from a table with at least one entry, no
    sequence of "Salvar", "Remover" and "Restaurar Padrões" reaches an empty
    table; in particular none does from the defaults loaded when there is no
    readable file. *)
Theorem remove_last_entry_refused :
  (forall (to_del : string) (isotopes : gmap string Isotope),
     size isotopes = 1%nat ->
     render_manager_remove to_del isotopes
       = (isotopes, [st_error "Mínimo 1 isótopo necessário."])) /\
  (forall (acts : list action) (isotopes : gmap string Isotope),
     (1 <= size isotopes)%nat -> (1 <= size (session acts isotopes))%nat) /\
  (forall acts : list action,
     (1 <= size (session acts (load_isotopes_from_file None)))%nat).
Proof.
  split; [| split].
  - intros to_del isotopes Hsz. unfold render_manager_remove.
    case_decide as Hlen; [lia | reflexivity].
  - exact session_keeps_one.
  - intros acts. apply session_keeps_one. cbn [load_isotopes_from_file].
    rewrite size_DEFAULT_ISOTOPES. lia.
Qed.

Lemma remove_last_entry_refused_witness :
  let only := <["Carbono-14" := mkIsotope 1.20968e-4 5730 "anos" 14.003]> ∅ in
  render_manager_remove "Carbono-14" only
    = (only, [st_error "Mínimo 1 isótopo necessário."]) /\
  (1 <= size (session [Remover "Césio-137"; Remover "Iodo-131"; Salvar "X" 10 0 "anos"]
                      DEFAULT_ISOTOPES))%nat.
Proof.
  intros only. destruct remove_last_entry_refused as (Hone & Hinv & _). split.
  - apply (Hone "Carbono-14" only). reflexivity.
  - apply (Hinv _ DEFAULT_ISOTOPES). rewrite size_DEFAULT_ISOTOPES. lia.
Defined.

(** C10: on a table with more than one entry that has the selected name,
    "Remover" deletes that entry and no other: the name is gone, every other
    key keeps its record, and the table is one entry smaller. *)
Theorem remove_deletes_only_selected (to_del : string) (x : Isotope)
    (isotopes : gmap string Isotope) :
  (1 < size isotopes)%nat -> isotopes !! to_del = Some x ->
  let isotopes' := fst (render_manager_remove to_del isotopes) in
  isotopes' !! to_del = None /\
  (forall k : string, k <> to_del -> isotopes' !! k = isotopes !! k) /\
  size isotopes' = (size isotopes - 1)%nat /\
  snd (render_manager_remove to_del isotopes)
    = [save_isotopes_to_file isotopes'; st_success "Removido!"; st_rerun].
Proof.
  intros Hlen Hx. unfold render_manager_remove.
  rewrite decide_True by exact Hlen. rewrite Hx. cbn [fst snd]. repeat split.
  - apply lookup_delete_eq.
  - intros k Hk. apply lookup_delete_ne. congruence.
  - rewrite map_size_delete, Hx. lia.
Qed.

Lemma remove_deletes_only_selected_witness :
  let isotopes' := fst (render_manager_remove "Iodo-131" DEFAULT_ISOTOPES) in
  isotopes' !! "Iodo-131" = None /\
  isotopes' !! "Cobalto-60" = Some (mkIsotope 0.1315 5.27 "anos" 59.933) /\
  size isotopes' = 6%nat.
Proof.
  destruct (remove_deletes_only_selected "Iodo-131"
              (mkIsotope 31.55 8.02 "dias" 130.906) DEFAULT_ISOTOPES)
    as (Hgone & Hother & Hsize & _).
  - rewrite size_DEFAULT_ISOTOPES. lia.
  - reflexivity.
  - cbn zeta. split; [exact Hgone | split].
    + rewrite (Hother "Cobalto-60") by discriminate. reflexivity.
    + rewrite Hsize, size_DEFAULT_ISOTOPES. reflexivity.
Defined.

(** * Further properties of the code *)

(** ** The unit table and the four functions *)

(** X1: the five factors agree with one another: 60 seconds are a minute,
    60 minutes an hour, 24 hours a day and 365.25 days a year. *)
Theorem unit_table_consistent (v : R) :
  convert_time_to_years (60 * v) "segundos" = convert_time_to_years v "minutos" /\
  convert_time_to_years (60 * v) "minutos" = convert_time_to_years v "horas" /\
  convert_time_to_years (24 * v) "horas" = convert_time_to_years v "dias" /\
  convert_time_to_years (365.25 * v) "dias" = convert_time_to_years v "anos".
Proof.
  unfold convert_time_to_years. cbn. repeat split; lra.
Qed.

Lemma convert_keeps_order_lt (v1 v2 : R) (unit : string) :
  v1 < v2 -> convert_time_to_years v1 unit < convert_time_to_years v2 unit.
Proof.
  unfold convert_time_to_years. pose proof (factor_pos unit) as Hf. intros H. nra.
Qed.

(** X2: for every unit string, recognized or not, the conversion keeps the
    order of durations. *)
Theorem convert_keeps_order (v1 v2 : R) (unit : string) :
  v1 < v2 <-> convert_time_to_years v1 unit < convert_time_to_years v2 unit.
Proof.
  unfold convert_time_to_years. pose proof (factor_pos unit) as Hf.
  split; intros H; nra.
Qed.

(** X3: for [w > 0], converting a count to a mass and back gives the count
    again. *)
Theorem nuclei_mass_round_trip (n w : R) :
  0 < w -> mass_to_nuclei (nuclei_to_mass n w) w = n.
Proof.
  intros Hw. unfold nuclei_to_mass, mass_to_nuclei, AVOGADRO_NUMBER.
  destruct (Rle_dec w 0) as [Hle | _]; [lra |].
  field. split; lra.
Qed.

Lemma nuclei_mass_round_trip_witness :
  mass_to_nuclei (nuclei_to_mass 1.0e20 14.003) 14.003 = 1.0e20.
Proof. apply (nuclei_mass_round_trip 1.0e20 14.003). lra. Defined.

Lemma mass_to_nuclei_nonneg (m w : R) : 0 <= m -> 0 <= mass_to_nuclei m w.
Proof.
  intros Hm. unfold mass_to_nuclei, AVOGADRO_NUMBER.
  destruct (Rle_dec w 0) as [_ | Hw]; [lra |].
  apply Rmult_le_pos; [| lra].
  apply Rmult_le_pos; [exact Hm |]. left. apply Rinv_0_lt_compat. lra.
Qed.

(** X4: the clamp of [mass_to_nuclei].  With an atomic weight [<= 0] the
    count is [0] whatever the mass, so the way back gives [0] and not the
    mass; and a mass [>= 0] never gives a negative count. *)
Theorem mass_to_nuclei_clamp_effect (m w : R) :
  (w <= 0 -> mass_to_nuclei m w = 0 /\ nuclei_to_mass (mass_to_nuclei m w) w = 0) /\
  (0 <= m -> 0 <= mass_to_nuclei m w).
Proof.
  split.
  - intros Hw. unfold nuclei_to_mass, mass_to_nuclei.
    destruct (Rle_dec w 0) as [_ | Hn]; [| lra]. split; [reflexivity |].
    unfold Rdiv. ring.
  - apply mass_to_nuclei_nonneg.
Qed.

Lemma mass_to_nuclei_clamp_effect_witness :
  nuclei_to_mass (mass_to_nuclei 2.5 (-1)) (-1) = 0 /\ 0 <= mass_to_nuclei 2.5 (-1).
Proof.
  destruct (mass_to_nuclei_clamp_effect 2.5 (-1)) as [Hc Hp]. split.
  - apply Hc. lra.
  - apply Hp. lra.
Defined.

(** X5: decaying for [t1] and then, from what is left, for [t2] is decaying
    for [t1 + t2]. *)
Theorem decay_composes (N0 lam t1 t2 : R) :
  calculate_simple_decay (calculate_simple_decay N0 lam t1) lam t2
  = calculate_simple_decay N0 lam (t1 + t2).
Proof.
  unfold calculate_simple_decay.
  replace (- lam * (t1 + t2)) with (- lam * t1 + - lam * t2) by ring.
  rewrite exp_plus. ring.
Qed.

Lemma decay_le_initial (N0 lam t : R) :
  0 <= lam -> 0 <= N0 -> 0 <= t ->
  0 <= calculate_simple_decay N0 lam t <= N0.
Proof.
  intros Hlam HN0 Ht. unfold calculate_simple_decay.
  pose proof (exp_pos (- lam * t)) as Hpos.
  assert (Hle : exp (- lam * t) <= 1).
  { rewrite <- exp_0. apply exp_monotone. nra. }
  split; nra.
Qed.

(** X6: with [lam >= 0], [N0 >= 0] and [t >= 0] what is left lies between
    [0] and [N0]. *)
Theorem decay_bounds (N0 lam t : R) :
  0 <= lam -> 0 <= N0 -> 0 <= t ->
  0 <= calculate_simple_decay N0 lam t <= N0.
Proof.
  intros Hlam HN0 Ht. unfold calculate_simple_decay.
  pose proof (exp_pos (- lam * t)) as Hpos.
  assert (Hle : exp (- lam * t) <= exp 0) by (apply exp_monotone; nra).
  rewrite exp_0 in Hle. split; nra.
Qed.

Lemma decay_bounds_witness :
  0 <= calculate_simple_decay 1.0e20 0.02298 30.17 <= 1.0e20.
Proof. apply (decay_bounds 1.0e20 0.02298 30.17); lra. Defined.

(** X7: a negative [lam] is accepted and turns decay into growth: for
    [lam <= 0], [N0 > 0] and [t1 <= t2] the value at [t2] is at least the
    value at [t1]. *)
Theorem decay_negative_lambda_never_decreases (N0 lam t1 t2 : R) :
  lam <= 0 -> 0 < N0 -> t1 <= t2 ->
  calculate_simple_decay N0 lam t1 <= calculate_simple_decay N0 lam t2.
Proof.
  intros Hlam HN0 Ht. unfold calculate_simple_decay.
  apply Rmult_le_compat_l; [lra |].
  apply exp_monotone. nra.
Qed.

Lemma decay_negative_lambda_never_decreases_witness :
  calculate_simple_decay 5 (-1) 0 <= calculate_simple_decay 5 (-1) 2.
Proof. apply (decay_negative_lambda_never_decreases 5 (-1) 0 2); lra. Defined.

(** ** The curve of run_simple_mode *)

Lemma nth_map_lt {A B : Type} (f : A -> B) (l : list A) (i : nat) (d : B) (d' : A) :
  (i < length l)%nat -> nth i (map f l) d = f (nth i l d').
Proof.
  intros Hi. rewrite (nth_indep _ d (f d')) by now rewrite length_map.
  apply map_nth.
Qed.

Lemma last_map_nonempty {A B : Type} (f : A -> B) (l : list A) (d : B) (d' : A) :
  l <> [] -> List.last (map f l) d = f (List.last l d').
Proof.
  induction l as [| x [| y l'] IH]; intros Hne; [contradiction | reflexivity |].
  cbn [map List.last] in *. apply IH. discriminate.
Qed.

Lemma t_plot_nonempty (w : simple_widgets) : t_plot w <> [].
Proof.
  intros H. pose proof (length_t_plot w) as L. rewrite H in L. cbn in L. lia.
Qed.

Lemma max_t_pos (w : simple_widgets) : 0 < max_t w.
Proof. unfold max_t. destruct (Rgt_dec (simple_t w) 0); lra. Qed.

Lemma nth_t_plot (w : simple_widgets) (i : nat) (d : R) :
  (i <= simple_steps w)%nat ->
  nth i (t_plot w) d = INR i * (max_t w / INR (simple_steps w)).
Proof.
  intros Hi. unfold t_plot. rewrite nth_np_linspace by lia.
  replace (simple_steps w + 1 - 1)%nat with (simple_steps w) by lia.
  unfold Rdiv. ring.
Qed.

Lemma t_plot_ascending (w : simple_widgets) (i : nat) (d : R) :
  (i < simple_steps w)%nat -> nth i (t_plot w) d < nth (S i) (t_plot w) d.
Proof.
  intros Hi. rewrite !nth_t_plot by lia. rewrite S_INR.
  assert (0 < max_t w / INR (simple_steps w)).
  { apply Rdiv_lt_0_compat; [apply max_t_pos | apply lt_0_INR; lia]. }
  lra.
Qed.

Lemma decay_antitone (N0 lam t1 t2 : R) :
  0 <= lam -> 0 <= N0 -> t1 <= t2 ->
  calculate_simple_decay N0 lam t2 <= calculate_simple_decay N0 lam t1.
Proof.
  intros Hlam HN0 Ht. unfold calculate_simple_decay.
  apply Rmult_le_compat_l; [exact HN0 |]. apply exp_monotone. nra.
Qed.

Lemma N0_nonneg (iso_data : Isotope) (w : simple_widgets) :
  0 <= simple_mass w -> 0 <= simple_n0 w -> 0 <= N0 iso_data w.
Proof.
  intros Hm Hn. unfold N0. destruct (String.eqb _ _); [| exact Hn].
  now apply mass_to_nuclei_nonneg.
Qed.

Lemma nth_Nt_vec (iso_data : Isotope) (w : simple_widgets) (i : nat) (d : R) :
  (i <= simple_steps w)%nat ->
  nth i (Nt_vec iso_data w) d
  = calculate_simple_decay (N0 iso_data w) (simple_lam w)
      (convert_time_to_years (nth i (t_plot w) 0) (simple_unit w)).
Proof.
  intros Hi. unfold Nt_vec, t_years_vec.
  rewrite (nth_map_lt _ _ _ _ 0) by (rewrite length_map, length_t_plot; lia).
  rewrite (nth_map_lt _ _ _ _ 0) by (rewrite length_t_plot; lia).
  reflexivity.
Qed.

Lemma length_Nt_vec (iso_data : Isotope) (w : simple_widgets) :
  length (Nt_vec iso_data w) = (simple_steps w + 1)%nat.
Proof. unfold Nt_vec, t_years_vec. now rewrite !length_map, length_t_plot. Qed.

Lemma Nt_vec_non_increasing (iso_data : Isotope) (w : simple_widgets) (i : nat) :
  0 <= simple_lam w -> 0 <= simple_mass w -> 0 <= simple_n0 w ->
  (i < simple_steps w)%nat ->
  nth (S i) (Nt_vec iso_data w) 0 <= nth i (Nt_vec iso_data w) 0.
Proof.
  intros Hlam Hm Hn Hi. rewrite !nth_Nt_vec by lia.
  apply decay_antitone; [exact Hlam | now apply N0_nonneg |].
  left. apply convert_keeps_order_lt, t_plot_ascending, Hi.
Qed.

(** X8: with [lam >= 0] and non-negative initial quantities, the plotted
    values never rise from one point of the curve to the next, in mass mode
    as in count mode and whatever the atomic weight. *)
Theorem y_vals_non_increasing (iso_data : Isotope) (w : simple_widgets) (i : nat) :
  0 <= simple_lam w -> 0 <= simple_mass w -> 0 <= simple_n0 w ->
  (i < simple_steps w)%nat ->
  nth (S i) (y_vals iso_data w) 0 <= nth i (y_vals iso_data w) 0.
Proof.
  intros Hlam Hm Hn Hi.
  pose proof (Nt_vec_non_increasing iso_data w i Hlam Hm Hn Hi) as HNt.
  unfold y_vals. destruct (String.eqb (simple_mode w) "Massa (g)") eqn:Hmode;
    [| exact HNt].
  rewrite !(nth_map_lt _ _ _ _ 0) by (rewrite length_Nt_vec; lia).
  destruct (Rle_dec (atomic_w iso_data) 0) as [Hle | Hgt].
  - rewrite !nth_Nt_vec by lia. unfold N0. rewrite Hmode.
    unfold mass_to_nuclei. destruct (Rle_dec (atomic_w iso_data) 0); [| contradiction].
    unfold nuclei_to_mass, calculate_simple_decay, Rdiv. right. ring.
  - unfold nuclei_to_mass, AVOGADRO_NUMBER.
    apply Rmult_le_compat_r; [lra |].
    apply Rmult_le_compat_r; [| exact HNt].
    left. apply Rinv_0_lt_compat. lra.
Qed.

Lemma y_vals_non_increasing_witness :
  let w := mkSimpleWidgets 0.02298 100 "anos" "Massa (g)" 1 1.0e20 10 in
  let iso := mkIsotope 0.02298 30.17 "anos" 136.907 in
  nth 4 (y_vals iso w) 0 <= nth 3 (y_vals iso w) 0.
Proof.
  intros w iso. apply (y_vals_non_increasing iso w 3); subst w;
    cbn [simple_lam simple_mass simple_n0 simple_steps]; [lra | lra | lra | lia].
Defined.

Lemma nth_0_Nt_vec (iso_data : Isotope) (w : simple_widgets) :
  nth 0 (Nt_vec iso_data w) 0 = N0 iso_data w.
Proof.
  rewrite nth_Nt_vec by lia. rewrite nth_t_plot by lia. cbn [INR].
  unfold convert_time_to_years, calculate_simple_decay.
  replace (- simple_lam w * (0 * (max_t w / INR (simple_steps w))
             * dict_get CONVERSIONS_TO_YEARS (simple_unit w) 1)) with 0 by ring.
  rewrite exp_0. ring.
Qed.

(** X9: the curve starts at the quantity entered: in count mode at the
    count, in mass mode at the mass when the atomic weight is positive and
    at [0] when it is not. *)
Theorem y_vals_first (iso_data : Isotope) (w : simple_widgets) :
  (simple_mode w <> "Massa (g)"%string ->
     nth 0 (y_vals iso_data w) 0 = simple_n0 w) /\
  (simple_mode w = "Massa (g)"%string -> 0 < atomic_w iso_data ->
     nth 0 (y_vals iso_data w) 0 = simple_mass w) /\
  (simple_mode w = "Massa (g)"%string -> atomic_w iso_data <= 0 ->
     nth 0 (y_vals iso_data w) 0 = 0).
Proof.
  pose proof (nth_0_Nt_vec iso_data w) as H0.
  unfold y_vals, N0 in *. repeat split.
  - intros Hmode. apply String.eqb_neq in Hmode. rewrite Hmode in *. exact H0.
  - intros Hmode Hw. apply String.eqb_eq in Hmode. rewrite Hmode in *.
    rewrite (nth_map_lt _ _ _ _ 0) by (rewrite length_Nt_vec; lia).
    rewrite H0. unfold nuclei_to_mass, mass_to_nuclei, AVOGADRO_NUMBER.
    destruct (Rle_dec (atomic_w iso_data) 0); [lra |]. field. split; lra.
  - intros Hmode Hw. apply String.eqb_eq in Hmode. rewrite Hmode in *.
    rewrite (nth_map_lt _ _ _ _ 0) by (rewrite length_Nt_vec; lia).
    rewrite H0. unfold nuclei_to_mass, mass_to_nuclei.
    destruct (Rle_dec (atomic_w iso_data) 0); [| lra]. unfold Rdiv. ring.
Qed.

Lemma y_vals_first_witness :
  let w := mkSimpleWidgets 0.02298 100 "anos" "Massa (g)" 2.5 1.0e20 10 in
  nth 0 (y_vals (mkIsotope 0.02298 30.17 "anos" 136.907) w) 0 = 2.5 /\
  nth 0 (y_vals (mkIsotope 0.02298 30.17 "anos" 0) w) 0 = 0.
Proof.
  intros w. split.
  - destruct (y_vals_first (mkIsotope 0.02298 30.17 "anos" 136.907) w) as (_ & H & _).
    apply H; [reflexivity | unfold atomic_w; cbn [atomic_weight]; lra].
  - destruct (y_vals_first (mkIsotope 0.02298 30.17 "anos" 0) w) as (_ & _ & H).
    apply H; [reflexivity | unfold atomic_w; cbn [atomic_weight]; lra].
Defined.

Lemma last_t_plot (w : simple_widgets) :
  (0 < simple_steps w)%nat -> List.last (t_plot w) 0 = max_t w.
Proof. intros Hs. unfold t_plot. now apply last_np_linspace. Qed.

Lemma last_Nt_vec (iso_data : Isotope) (w : simple_widgets) :
  (0 < simple_steps w)%nat ->
  List.last (Nt_vec iso_data w) 0
  = calculate_simple_decay (N0 iso_data w) (simple_lam w)
      (convert_time_to_years (max_t w) (simple_unit w)).
Proof.
  intros Hs. unfold Nt_vec, t_years_vec.
  rewrite (last_map_nonempty _ _ _ 0).
  - rewrite (last_map_nonempty _ _ _ 0) by apply t_plot_nonempty.
    now rewrite last_t_plot.
  - intros H. apply map_eq_nil in H. now apply t_plot_nonempty in H.
Qed.

Lemma last_y_vals (iso_data : Isotope) (w : simple_widgets) :
  List.last (y_vals iso_data w) 0
  = if String.eqb (simple_mode w) "Massa (g)"
    then nuclei_to_mass (List.last (Nt_vec iso_data w) 0) (atomic_w iso_data)
    else List.last (Nt_vec iso_data w) 0.
Proof.
  unfold y_vals. destruct (String.eqb _ _); [| reflexivity].
  apply (last_map_nonempty (fun n => nuclei_to_mass n (atomic_w iso_data))). intros H.
  pose proof (length_Nt_vec iso_data w) as L. rewrite H in L. cbn in L. lia.
Qed.

(** X10: with a duration [> 0] (and at least one step) the curve ends at
    the value shown as "Resultado Final". *)
Theorem curve_ends_at_result (iso_data : Isotope) (w : simple_widgets) :
  0 < simple_t w -> (0 < simple_steps w)%nat ->
  List.last (y_vals iso_data w) 0 = res_display iso_data w.
Proof.
  intros Ht Hs. rewrite last_y_vals, last_Nt_vec by exact Hs.
  unfold res_display, Nt_final, t_years_total, max_t.
  destruct (Rgt_dec (simple_t w) 0); [reflexivity | lra].
Qed.

Lemma curve_ends_at_result_witness :
  let w := mkSimpleWidgets 0.02298 30.17 "anos" "Núcleos (N0)" 1 1.0e20 10 in
  let iso := mkIsotope 0.02298 30.17 "anos" 136.907 in
  List.last (y_vals iso w) 0 = res_display iso w.
Proof.
  intros w iso. apply (curve_ends_at_result iso w); subst w;
    cbn [simple_t simple_steps]; [lra | lia].
Defined.

(** X11: in mass mode with a positive atomic weight the result does not
    depend on that weight: the final value and the whole curve are the decay
    law applied to the mass entered. *)
Theorem mass_mode_ignores_atomic_weight (iso_data : Isotope) (w : simple_widgets) :
  simple_mode w = "Massa (g)"%string -> 0 < atomic_w iso_data ->
  res_display iso_data w
    = calculate_simple_decay (simple_mass w) (simple_lam w) (t_years_total w) /\
  y_vals iso_data w
    = map (calculate_simple_decay (simple_mass w) (simple_lam w)) (t_years_vec w).
Proof.
  intros Hmode Hw. apply String.eqb_eq in Hmode.
  assert (Hrt : forall t,
    nuclei_to_mass (calculate_simple_decay (N0 iso_data w) (simple_lam w) t)
      (atomic_w iso_data)
    = calculate_simple_decay (simple_mass w) (simple_lam w) t).
  { intros t. unfold N0. rewrite Hmode.
    unfold nuclei_to_mass, calculate_simple_decay, mass_to_nuclei, AVOGADRO_NUMBER.
    destruct (Rle_dec (atomic_w iso_data) 0); [lra |]. field. split; lra. }
  unfold res_display, y_vals, Nt_final, Nt_vec. rewrite Hmode. split.
  - apply Hrt.
  - rewrite map_map. apply map_ext. intros t. apply Hrt.
Qed.

Lemma mass_mode_ignores_atomic_weight_witness :
  let w := mkSimpleWidgets 0.02298 30.17 "anos" "Massa (g)" 2.5 1.0e20 10 in
  res_display (mkIsotope 0.02298 30.17 "anos" 136.907) w
  = calculate_simple_decay 2.5 0.02298 (t_years_total w).
Proof.
  intros w.
  destruct (mass_mode_ignores_atomic_weight (mkIsotope 0.02298 30.17 "anos" 136.907) w)
    as [H _]; [reflexivity | unfold atomic_w; cbn [atomic_weight]; lra | exact H].
Defined.

(** X12: in mass mode with an atomic weight [<= 0] the final value and
    every point of the curve are [0]. *)
Theorem mass_mode_without_weight_is_zero (iso_data : Isotope) (w : simple_widgets) :
  simple_mode w = "Massa (g)"%string -> atomic_w iso_data <= 0 ->
  res_display iso_data w = 0 /\
  Forall (fun y => y = 0) (y_vals iso_data w).
Proof.
  intros Hmode Hw. apply String.eqb_eq in Hmode.
  assert (Hz : forall t,
    nuclei_to_mass (calculate_simple_decay (N0 iso_data w) (simple_lam w) t)
      (atomic_w iso_data) = 0).
  { intros t. unfold N0. rewrite Hmode.
    unfold nuclei_to_mass, calculate_simple_decay, mass_to_nuclei.
    destruct (Rle_dec (atomic_w iso_data) 0); [| lra]. unfold Rdiv. ring. }
  unfold res_display, y_vals, Nt_final, Nt_vec. rewrite Hmode. split.
  - apply Hz.
  - rewrite map_map. apply List.Forall_forall. intros y Hy.
    apply in_map_iff in Hy. destruct Hy as (t & <- & _). apply Hz.
Qed.

Lemma mass_mode_without_weight_is_zero_witness :
  let w := mkSimpleWidgets 0.02298 30.17 "anos" "Massa (g)" 2.5 1.0e20 10 in
  res_display (mkIsotope 0.02298 30.17 "anos" 0) w = 0.
Proof.
  intros w.
  destruct (mass_mode_without_weight_is_zero (mkIsotope 0.02298 30.17 "anos" 0) w)
    as [H _]; [reflexivity | unfold atomic_w; cbn [atomic_weight]; lra | exact H].
Defined.

(** X13: a negative duration is not rejected.  In count mode with
    [lam > 0] and a positive count, "Resultado Final" is then larger than
    the count entered, while the curve, drawn over the default span, ends
    below it. *)
Theorem negative_duration_result_exceeds_input (iso_data : Isotope) (w : simple_widgets) :
  simple_mode w <> "Massa (g)"%string ->
  simple_t w < 0 -> 0 < simple_lam w -> 0 < simple_n0 w -> (0 < simple_steps w)%nat ->
  simple_n0 w < res_display iso_data w /\
  List.last (y_vals iso_data w) 0 < simple_n0 w.
Proof.
  intros Hmode Ht Hlam Hn Hs. apply String.eqb_neq in Hmode.
  pose proof (factor_pos (simple_unit w)) as Hf.
  rewrite last_y_vals, last_Nt_vec by exact Hs.
  unfold res_display, Nt_final, N0, t_years_total. rewrite Hmode.
  rewrite (max_t_default w) by lra.
  unfold calculate_simple_decay, convert_time_to_years.
  set (f := dict_get CONVERSIONS_TO_YEARS (simple_unit w) 1) in *.
  assert (Hneg : simple_t w * f < 0) by nra.
  assert (Hpos : 0 < 100 * f) by nra.
  split.
  - rewrite <- (Rmult_1_r (simple_n0 w)) at 1.
    apply Rmult_lt_compat_l; [exact Hn |]. rewrite <- exp_0.
    apply exp_increasing. nra.
  - rewrite <- (Rmult_1_r (simple_n0 w)) at 2.
    apply Rmult_lt_compat_l; [exact Hn |]. rewrite <- exp_0.
    apply exp_increasing. nra.
Qed.

Lemma negative_duration_result_exceeds_input_witness :
  let w := mkSimpleWidgets 0.02298 (-10) "anos" "Núcleos (N0)" 1 1.0e20 10 in
  let iso := mkIsotope 0.02298 30.17 "anos" 136.907 in
  simple_n0 w < res_display iso w /\ List.last (y_vals iso w) 0 < simple_n0 w.
Proof.
  intros w iso. apply (negative_duration_result_exceeds_input iso w); subst w;
    cbn [simple_mode simple_t simple_lam simple_n0 simple_steps];
    [discriminate | lra | lra | lra | lia].
Defined.

(** ** The value shown as "Resultado Final" *)

(** X14: with a duration [>= 0], [lam >= 0] and non-negative quantities
    entered, "Resultado Final" lies between [0] and the quantity entered:
    the count in count mode, the mass in mass mode. *)
Theorem result_within_input (iso_data : Isotope) (w : simple_widgets) :
  0 <= simple_t w -> 0 <= simple_lam w -> 0 <= simple_mass w -> 0 <= simple_n0 w ->
  0 <= res_display iso_data w
       <= (if String.eqb (simple_mode w) "Massa (g)" then simple_mass w else simple_n0 w).
Proof.
  intros Ht Hlam Hm Hn.
  assert (Hty : 0 <= t_years_total w).
  { unfold t_years_total, convert_time_to_years.
    pose proof (factor_pos (simple_unit w)) as Hf. nra. }
  unfold res_display, Nt_final, N0.
  destruct (String.eqb (simple_mode w) "Massa (g)").
  - unfold mass_to_nuclei, nuclei_to_mass.
    destruct (Rle_dec (atomic_w iso_data) 0) as [Hle | Hgt].
    + unfold calculate_simple_decay, Rdiv.
      replace (0 * exp (- simple_lam w * t_years_total w) * / AVOGADRO_NUMBER
               * atomic_w iso_data) with 0 by ring.
      lra.
    + pose proof (decay_le_initial (simple_mass w) (simple_lam w) (t_years_total w)
                    Hlam Hm Hty) as Hd.
      replace (calculate_simple_decay
                 (simple_mass w / atomic_w iso_data * AVOGADRO_NUMBER)
                 (simple_lam w) (t_years_total w) / AVOGADRO_NUMBER * atomic_w iso_data)
        with (calculate_simple_decay (simple_mass w) (simple_lam w) (t_years_total w)).
      * exact Hd.
      * unfold calculate_simple_decay, AVOGADRO_NUMBER. field. split; lra.
  - now apply decay_le_initial.
Qed.

Lemma result_within_input_witness :
  let w := mkSimpleWidgets 0.02298 30.17 "anos" "Massa (g)" 2.5 1.0e20 10 in
  0 <= res_display (mkIsotope 0.02298 30.17 "anos" 136.907) w <= 2.5.
Proof.
  intros w.
  apply (result_within_input (mkIsotope 0.02298 30.17 "anos" 136.907) w); subst w;
    cbn [simple_t simple_lam simple_mass simple_n0]; lra.
Defined.


(** ** The isotope table under the manager's handlers *)



(** X16: the last write wins: saving a name twice leaves the table that
    the second save alone would have produced. *)
Theorem add_last_write_wins (name : string) (mass1 hl1 mass2 hl2 : R) (u1 u2 : string)
    (isotopes : gmap string Isotope) :
  fst (render_manager_add name mass2 hl2 u2
         (fst (render_manager_add name mass1 hl1 u1 isotopes)))
  = fst (render_manager_add name mass2 hl2 u2 isotopes).
Proof.
  unfold render_manager_add. destruct (String.eqb name ""); cbn [fst]; [reflexivity |].
  apply insert_insert_eq.
Qed.

(** X17: on a non-empty table, saving a new name and then removing it gives
    the table back; on an empty table the removal is refused and the new
    entry stays. *)
Theorem add_then_remove (name : string) (mass hl : R) (u : string)
    (isotopes : gmap string Isotope) :
  name <> ""%string -> isotopes !! name = None ->
  let added := fst (render_manager_add name mass hl u isotopes) in
  ((1 <= size isotopes)%nat -> fst (render_manager_remove name added) = isotopes) /\
  (size isotopes = 0%nat -> fst (render_manager_remove name added) = added).
Proof.
  intros Hn Hfresh. rewrite render_manager_add_named by exact Hn. cbn zeta. cbn [fst].
  unfold render_manager_remove.
  rewrite (map_size_insert_None _ _ _ Hfresh), lookup_insert_eq. split; intros Hsz.
  - rewrite decide_True by lia. cbn [fst]. now apply delete_insert_id.
  - rewrite decide_False by lia. reflexivity.
Qed.

Lemma add_then_remove_witness :
  fst (render_manager_remove "X"
         (fst (render_manager_add "X" 10 5 "anos" DEFAULT_ISOTOPES)))
  = DEFAULT_ISOTOPES.
Proof.
  destruct (add_then_remove "X" 10 5 "anos" DEFAULT_ISOTOPES) as [H _];
    [discriminate | reflexivity |].
  apply H. rewrite size_DEFAULT_ISOTOPES. lia.
Defined.

(** X18: the table is saved exactly when an action is carried out, and
    then it is the new table that is saved.  Every [save_isotopes_to_file]
    of an action writes the table the action leaves; an action that leaves
    another table than it found saves it; a save takes place exactly for
    "Salvar" under a non-empty name, for "Remover" on a table of more than
    one entry with a name that is a key, and for "Restaurar Padrões"; in
    every other case (empty name, refusal, [KeyError]) nothing is saved and
    the table is left as it was. *)
Theorem handle_saves_what_it_changes (a : action) (isotopes : gmap string Isotope) :
  let carried_out :=
    match a with
    | Salvar name _ _ _ => name <> ""%string
    | Remover to_del => (1 < size isotopes)%nat /\ is_Some (isotopes !! to_del)
    | RestaurarPadroes => True
    end in
  (forall data, In (save_isotopes_to_file data) (snd (handle a isotopes)) ->
     data = fst (handle a isotopes)) /\
  (fst (handle a isotopes) <> isotopes ->
     In (save_isotopes_to_file (fst (handle a isotopes))) (snd (handle a isotopes))) /\
  (carried_out ->
     In (save_isotopes_to_file (fst (handle a isotopes))) (snd (handle a isotopes))) /\
  (~ carried_out ->
     (forall data, ~ In (save_isotopes_to_file data) (snd (handle a isotopes))) /\
     fst (handle a isotopes) = isotopes).
Proof.
  cbn zeta. destruct a as [name mass hl u | to_del |]; cbn [handle].
  - unfold render_manager_add. destruct (String.eqb_spec name "") as [-> | Hn];
      cbn [fst snd].
    + split; [intros data [] |]. split; [intros H; now contradiction H |].
      split; [intros H; now contradiction H |].
      intros _. split; [intros data [] | reflexivity].
    + split; [intros data [H | [H | [H | []]]]; now inversion H |].
      split; [intros _; now left |]. split; [intros _; now left |].
      intros H. now contradiction H.
  - unfold render_manager_remove. case_decide as Hlen.
    + destruct (isotopes !! to_del) as [x |] eqn:Hx; cbn [fst snd].
      * split; [intros data [H | [H | [H | []]]]; now inversion H |].
        split; [intros _; now left |]. split; [intros _; now left |].
        intros H. exfalso. apply H. split; [exact Hlen | now exists x].
      * split; [intros data [H | []]; discriminate H |].
        split; [intros H; now contradiction H |].
        split; [intros [_ [x Hx']]; discriminate Hx' |].
        intros _. split; [| reflexivity]. intros data [H | []]. discriminate H.
    + cbn [fst snd]. split; [intros data [H | []]; discriminate H |].
      split; [intros H; now contradiction H |].
      split; [intros [Hlen' _]; contradiction |].
      intros _. split; [| reflexivity]. intros data [H | []]. discriminate H.
  - cbn [render_manager_reset fst snd].
    split; [intros data [H | [H | []]]; now inversion H |].
    split; [intros _; now left |]. split; [intros _; now left |].
    intros H. now contradiction H.
Qed.

Lemma handle_saves_what_it_changes_witness :
  In (save_isotopes_to_file (fst (handle (Remover "Iodo-131") DEFAULT_ISOTOPES)))
     (snd (handle (Remover "Iodo-131") DEFAULT_ISOTOPES)) /\
  (forall data,
     ~ In (save_isotopes_to_file data) (snd (handle (Remover "Xenon") DEFAULT_ISOTOPES))) /\
  fst (handle (Remover "Xenon") DEFAULT_ISOTOPES) = DEFAULT_ISOTOPES.
Proof.
  split.
  - apply (handle_saves_what_it_changes (Remover "Iodo-131") DEFAULT_ISOTOPES).
    split; [rewrite size_DEFAULT_ISOTOPES; lia | eexists; reflexivity].
  - apply (handle_saves_what_it_changes (Remover "Xenon") DEFAULT_ISOTOPES).
    intros [_ [x Hx]]. discriminate Hx.
Defined.

(** X19: "Remover" changes the table exactly when the table has more than
    one entry and the selected name is one of its keys. *)
Theorem remove_changes_iff (to_del : string) (isotopes : gmap string Isotope) :
  fst (render_manager_remove to_del isotopes) <> isotopes
  <-> (1 < size isotopes)%nat /\ is_Some (isotopes !! to_del).
Proof.
  unfold render_manager_remove. split.
  - case_decide as Hlen; [| intros H; now contradiction H].
    destruct (isotopes !! to_del) eqn:Hx; cbn [fst]; [eauto |].
    intros H. now contradiction H.
  - intros [Hlen [x Hx]]. rewrite decide_True by exact Hlen. rewrite Hx. cbn [fst].
    intros Heq. apply (f_equal (fun m => m !! to_del)) in Heq.
    rewrite lookup_delete_eq, Hx in Heq. discriminate Heq.
Qed.

Lemma ln_2_pos : 0 < ln 2.
Proof. rewrite <- ln_1. apply ln_increasing; lra. Qed.

Lemma DEFAULT_ISOTOPES_lambda_pos (k : string) (iso : Isotope) :
  DEFAULT_ISOTOPES !! k = Some iso -> 0 < lambda iso.
Proof.
  revert k iso. change (map_Forall (fun _ iso => 0 < lambda iso) DEFAULT_ISOTOPES).
  unfold DEFAULT_ISOTOPES.
  repeat (apply map_Forall_insert_2; [cbn [lambda]; lra |]).
  apply map_Forall_empty.
Qed.

Lemma handle_keeps_lambda_nonneg (a : action) (isotopes : gmap string Isotope) :
  (forall k iso, isotopes !! k = Some iso -> 0 <= lambda iso) ->
  forall k iso, fst (handle a isotopes) !! k = Some iso -> 0 <= lambda iso.
Proof.
  intros Hall k iso. destruct a as [name mass hl u | to_del |]; cbn [handle].
  - unfold render_manager_add. destruct (String.eqb name ""); cbn [fst]; [apply Hall |].
    destruct (decide (name = k)) as [-> | Hne].
    + rewrite lookup_insert_eq. intros [= <-]. cbn [lambda].
      destruct (Rgt_dec _ _) as [Hpos | _]; [| lra].
      left. apply Rdiv_lt_0_compat; [apply ln_2_pos | lra].
    + rewrite lookup_insert_ne by exact Hne. apply Hall.
  - unfold render_manager_remove. case_decide; [| apply Hall].
    destruct (isotopes !! to_del); cbn [fst]; [| apply Hall].
    intros Hk. apply lookup_delete_Some in Hk. destruct Hk as [_ Hk]. eapply Hall, Hk.
  - cbn [render_manager_reset fst]. intros Hk. left.
    eapply DEFAULT_ISOTOPES_lambda_pos, Hk.
Qed.

(** X20: no handler stores a negative decay constant: if no entry of the
    table has one, none has after any sequence of "Salvar", "Remover" and
    "Restaurar Padrões", whatever values are typed into the form; this holds
    in particular from the defaults. *)
Theorem session_keeps_lambda_nonneg (acts : list action) :
  (forall isotopes : gmap string Isotope,
     (forall k iso, isotopes !! k = Some iso -> 0 <= lambda iso) ->
     forall k iso, session acts isotopes !! k = Some iso -> 0 <= lambda iso) /\
  (forall k iso, session acts DEFAULT_ISOTOPES !! k = Some iso -> 0 <= lambda iso).
Proof.
  assert (Hgen : forall isotopes : gmap string Isotope,
     (forall k iso, isotopes !! k = Some iso -> 0 <= lambda iso) ->
     forall k iso, session acts isotopes !! k = Some iso -> 0 <= lambda iso).
  { induction acts as [| a rest IH]; intros isotopes Hall; cbn [session].
    - exact Hall.
    - apply IH. now apply handle_keeps_lambda_nonneg. }
  split; [exact Hgen |].
  apply Hgen. intros k iso Hk. left. eapply DEFAULT_ISOTOPES_lambda_pos, Hk.
Qed.

Lemma session_keeps_lambda_nonneg_witness :
  session [Remover "Iodo-131"; RestaurarPadroes; Remover "Cobalto-60"] DEFAULT_ISOTOPES
    !! "Carbono-14" = Some (mkIsotope 1.20968e-4 5730 "anos" 14.003) /\
  0 <= lambda (mkIsotope 1.20968e-4 5730 "anos" 14.003).
Proof.
  assert (Hk : session [Remover "Iodo-131"; RestaurarPadroes; Remover "Cobalto-60"]
                 DEFAULT_ISOTOPES !! "Carbono-14"
               = Some (mkIsotope 1.20968e-4 5730 "anos" 14.003)) by reflexivity.
  split; [exact Hk |].
  destruct (session_keeps_lambda_nonneg
              [Remover "Iodo-131"; RestaurarPadroes; Remover "Cobalto-60"]) as [_ H].
  exact (H "Carbono-14" _ Hk).
Defined.

(** X21: an isotope saved with a positive half-life is stored with a decay
    constant under which the decay law, run for that half-life in its unit,
    leaves exactly half of any initial quantity. *)
Theorem added_isotope_halves_in_half_life (name : string) (mass hl : R) (u : string)
    (isotopes : gmap string Isotope) (N : R) :
  name <> ""%string -> 0 < hl ->
  exists iso : Isotope,
    fst (render_manager_add name mass hl u isotopes) !! name = Some iso /\
    half_life iso = hl /\ unit iso = u /\
    calculate_simple_decay N (lambda iso)
      (convert_time_to_years (half_life iso) (unit iso)) = N / 2.
Proof.
  intros Hn Hhl. rewrite render_manager_add_named by exact Hn. cbn zeta. cbn [fst].
  rewrite lookup_insert_eq. eexists. split; [reflexivity |].
  cbn [lambda half_life unit]. split; [reflexivity | split; [reflexivity |]].
  assert (Hy : 0 < convert_time_to_years hl u) by now apply convert_time_to_years_sign.
  destruct (Rgt_dec _ _) as [_ | H]; [| lra].
  unfold calculate_simple_decay.
  replace (- (ln 2 / convert_time_to_years hl u) * convert_time_to_years hl u)
    with (- ln 2) by (field; lra).
  rewrite exp_Ropp, exp_ln by lra. unfold Rdiv. ring.
Qed.

Lemma added_isotope_halves_in_half_life_witness :
  exists iso : Isotope,
    fst (render_manager_add "Iodo-131" 130.906 8.02 "dias" DEFAULT_ISOTOPES) !! "Iodo-131"
      = Some iso /\
    half_life iso = 8.02 /\ unit iso = "dias"%string /\
    calculate_simple_decay 1.0e20 (lambda iso)
      (convert_time_to_years (half_life iso) (unit iso)) = 1.0e20 / 2.
Proof.
  apply (added_isotope_halves_in_half_life "Iodo-131" 130.906 8.02 "dias"
           DEFAULT_ISOTOPES 1.0e20); [discriminate | lra].
Defined.

(** ** The axis of setup_graph_layout *)

Lemma In_np_linspace_bounds (stop t : R) (n : nat) :
  0 < stop -> In t (np_linspace 0 stop (n + 1)) -> 0 <= t <= stop.
Proof.
  intros Hstop Hin. unfold np_linspace in Hin. apply in_map_iff in Hin.
  destruct Hin as (i & <- & Hi). apply in_seq in Hi.
  replace (n + 1 - 1)%nat with n by lia.
  destruct n as [| n'].
  - replace i with 0%nat by lia. cbn [INR]. lra.
  - set (n := S n') in *.
    assert (Hn : 0 < INR n) by (apply lt_0_INR; lia).
    assert (Hi0 : 0 <= INR i) by apply pos_INR.
    assert (Hin : INR i <= INR n) by (apply le_INR; lia).
    assert (Hq : 0 <= INR i / INR n <= 1).
    { split.
      - apply Rmult_le_pos; [exact Hi0 | left; now apply Rinv_0_lt_compat].
      - apply (Rmult_le_reg_r (INR n)); [exact Hn |].
        unfold Rdiv. rewrite Rmult_assoc, Rinv_l by lra. lra. }
    replace (0 + INR i * ((stop - 0) / INR n)) with (stop * (INR i / INR n))
      by (field; lra).
    split; nra.
Qed.

(** X22: the x axis fits the curve.  The layout built for the simple mode
    has six ticks, the first at [0] and the last at the end of the span, and
    every instant of the curve lies between [0] and that last tick, strictly
    inside the axis range. *)
Theorem curve_within_axis (selected_iso : string) (log_scale : bool)
    (chart_theme : string) (iso_data : Isotope) (w : simple_widgets) :
  let layout := simple_layout selected_iso log_scale chart_theme iso_data w in
  length (tickvals layout) = 6%nat /\
  nth 0 (tickvals layout) 0 = 0 /\
  List.last (tickvals layout) 0 = max_t w /\
  (forall t, In t (t_plot w) ->
     fst (xaxis_range layout) <= t <= List.last (tickvals layout) 0 /\
     t < snd (xaxis_range layout)).
Proof.
  cbn zeta. unfold simple_layout, setup_graph_layout.
  cbn [tickvals xaxis_range fst snd].
  assert (Hlast : List.last (np_linspace 0 (max_t w) 6) 0 = max_t w).
  { change 6%nat with (5 + 1)%nat. apply last_np_linspace. lia. }
  pose proof (max_t_pos w) as Hm. split; [| split; [| split]].
  - apply length_np_linspace.
  - rewrite nth_np_linspace by lia. cbn [INR]. ring.
  - exact Hlast.
  - intros t Ht. rewrite Hlast.
    apply (In_np_linspace_bounds (max_t w) t (simple_steps w) Hm) in Ht. lra.
Qed.

Lemma curve_within_axis_witness :
  let w := mkSimpleWidgets 0.02298 100 "anos" "Núcleos (N0)" 1 1.0e20 10 in
  let layout := simple_layout "Césio-137" false "plotly"
                  (mkIsotope 0.02298 30.17 "anos" 136.907) w in
  nth 3 (t_plot w) 0 < snd (xaxis_range layout).
Proof.
  intros w layout.
  destruct (curve_within_axis "Césio-137" false "plotly"
              (mkIsotope 0.02298 30.17 "anos" 136.907) w) as (_ & _ & _ & H).
  apply (H (nth 3 (t_plot w) 0)). apply nth_In. rewrite length_t_plot. cbn. lia.
Defined.

(** ** The default selection of run_simple_mode *)

Lemma list_index_In (x : string) (l : list string) :
  In x l -> exists i, list_index x l = Some i /\ nth_error l i = Some x.
Proof.
  induction l as [| y rest IH]; intros Hin; [destruct Hin |].
  cbn [list_index]. destruct (String.eqb_spec y x) as [-> | Hne].
  - exists 0%nat. split; reflexivity.
  - destruct Hin as [Heq | Hin]; [contradiction |].
    destruct (IH Hin) as (i & Hi & Hnth). exists (S i). rewrite Hi. split; [reflexivity | exact Hnth].
Qed.

Lemma existsb_eqb_In (x : string) (l : list string) :
  existsb (String.eqb x) l = true <-> In x l.
Proof.
  rewrite existsb_exists. split.
  - intros (y & Hy & Heq). apply String.eqb_eq in Heq. now subst.
  - intros H. exists x. split; [exact H | apply String.eqb_refl].
Qed.

(** X23: on a non-empty table the default selection is a key of the
    table, so that reading its record cannot fail: it is "Césio-137" when
    that name is in the list of keys and the first key otherwise. *)
Theorem default_selection_is_a_key (iso_list : list string)
    (isotopes : gmap string Isotope) :
  iso_list <> [] ->
  (forall k, In k iso_list <-> is_Some (isotopes !! k)) ->
  exists (selected_iso : string) (iso_data : Isotope),
    nth_error iso_list (idx_padrao iso_list) = Some selected_iso /\
    isotopes !! selected_iso = Some iso_data /\
    (In "Césio-137"%string iso_list -> selected_iso = "Césio-137"%string) /\
    (~ In "Césio-137"%string iso_list -> idx_padrao iso_list = 0%nat).
Proof.
  intros Hne Hkeys.
  assert (Hsel : exists s, nth_error iso_list (idx_padrao iso_list) = Some s /\
            (In "Césio-137"%string iso_list -> s = "Césio-137"%string) /\
            (~ In "Césio-137"%string iso_list -> idx_padrao iso_list = 0%nat)).
  { unfold idx_padrao.
    destruct (existsb (String.eqb "Césio-137") iso_list) eqn:Hex.
    - apply existsb_eqb_In in Hex. destruct (list_index_In _ _ Hex) as (i & Hi & Hnth).
      rewrite Hi. exists "Césio-137"%string. repeat split; [exact Hnth | contradiction].
    - assert (Hnot : ~ In "Césio-137"%string iso_list).
      { intros Hin. apply existsb_eqb_In in Hin. congruence. }
      destruct iso_list as [| s rest]; [contradiction |].
      exists s. repeat split. intros Hin. contradiction. }
  destruct Hsel as (s & Hnth & Hces & Hfirst).
  assert (Hin : In s iso_list) by (eapply nth_error_In, Hnth).
  apply Hkeys in Hin. destruct Hin as [iso Hiso].
  exists s, iso. repeat split; assumption.
Qed.

Lemma default_selection_is_a_key_witness :
  exists (selected_iso : string) (iso_data : Isotope),
    nth_error ["Carbono-14"; "Césio-137"]%string
      (idx_padrao ["Carbono-14"; "Césio-137"]%string) = Some selected_iso /\
    (<["Césio-137" := mkIsotope 0.02298 30.17 "anos" 136.907]>
      (<["Carbono-14" := mkIsotope 1.20968e-4 5730 "anos" 14.003]> ∅) : gmap string Isotope)
      !! selected_iso = Some iso_data /\
    selected_iso = "Césio-137"%string.
Proof.
  destruct (default_selection_is_a_key ["Carbono-14"; "Césio-137"]%string
    (<["Césio-137" := mkIsotope 0.02298 30.17 "anos" 136.907]>
      (<["Carbono-14" := mkIsotope 1.20968e-4 5730 "anos" 14.003]> ∅)))
    as (s & iso & Hnth & Hiso & Hces & _).
  - discriminate.
  - intros k. split.
    + intros [<- | [<- | []]]; eexists; reflexivity.
    + intros [x Hx]. destruct (decide (k = "Césio-137"%string)) as [-> | Hn1];
        [right; now left |].
      rewrite lookup_insert_ne in Hx by congruence.
      destruct (decide (k = "Carbono-14"%string)) as [-> | Hn2]; [now left |].
      rewrite lookup_insert_ne in Hx by congruence. rewrite lookup_empty in Hx.
      discriminate Hx.
  - exists s, iso. repeat split; [exact Hnth | exact Hiso |].
    apply Hces. right. now left.
Defined.

(** ** The frame of show_datatable *)

Lemma show_datatable_df_other_label (t_vec col : list R) (label t_unit : string) :
  label <> String.append "Tempo (" (String.append t_unit ")") ->
  show_datatable_df t_vec [(label, col)] t_unit
  = if Nat.eqb (length col) (length t_vec)
    then Some [(String.append "Tempo (" (String.append t_unit ")"), t_vec); (label, col)]
    else None.
Proof.
  intros Hne. unfold show_datatable_df, dict_update.
  cbn [fold_left dict_set fst snd].
  destruct (String.eqb_spec (String.append "Tempo (" (String.append t_unit ")")) label)
    as [Heq | _]; [congruence |].
  cbn [pd_DataFrame forallb snd]. now rewrite andb_true_r.
Qed.

(** X24: the frame for one data column.  A column labelled otherwise than
    the time column and as long as it stands second, after the time column;
    one of another length makes the frame fail; and one labelled exactly as
    the time column takes its place, so that the times are lost. *)
Theorem show_datatable_one_column (t_vec col : list R) (label t_unit : string) :
  let time_label := String.append "Tempo (" (String.append t_unit ")") in
  (label <> time_label -> length col = length t_vec ->
     show_datatable_df t_vec [(label, col)] t_unit
       = Some [(time_label, t_vec); (label, col)]) /\
  (label <> time_label -> length col <> length t_vec ->
     show_datatable_df t_vec [(label, col)] t_unit = None) /\
  (label = time_label ->
     show_datatable_df t_vec [(label, col)] t_unit = Some [(time_label, col)]).
Proof.
  cbn zeta. split; [| split].
  - intros Hne Hlen. rewrite show_datatable_df_other_label by exact Hne.
    now rewrite Hlen, Nat.eqb_refl.
  - intros Hne Hlen. rewrite show_datatable_df_other_label by exact Hne.
    apply Nat.eqb_neq in Hlen. now rewrite Hlen.
  - intros ->. unfold show_datatable_df, dict_update.
    cbn [fold_left dict_set fst snd]. rewrite String.eqb_refl. reflexivity.
Qed.

Lemma show_datatable_one_column_witness :
  show_datatable_df [0; 1] [("Quantidade (g)"%string, [5; 4])] "anos"
    = Some [("Tempo (anos)"%string, [0; 1]); ("Quantidade (g)"%string, [5; 4])] /\
  show_datatable_df [0; 1] [("Quantidade (g)"%string, [5])] "anos" = None /\
  show_datatable_df [0; 1] [("Tempo (anos)"%string, [5; 4])] "anos"
    = Some [("Tempo (anos)"%string, [5; 4])].
Proof.
  split; [| split].
  - apply (show_datatable_one_column [0; 1] [5; 4] "Quantidade (g)" "anos");
      [discriminate | reflexivity].
  - apply (show_datatable_one_column [0; 1] [5] "Quantidade (g)" "anos");
      [discriminate | discriminate].
  - apply (show_datatable_one_column [0; 1] [5; 4] "Tempo (anos)" "anos"). reflexivity.
Defined.

(** X25: in the simple mode the frame is always built and always has the
    two columns, times first: the quantity label never collides with the
    time label and both columns have [steps + 1] rows. *)
Theorem simple_df_two_columns (iso_data : Isotope) (w : simple_widgets) :
  simple_df iso_data w
  = Some [ (String.append "Tempo (" (String.append (simple_unit w) ")"), t_plot w);
           (String.append "Quantidade (" (String.append (unit_label w) ")"),
            y_vals iso_data w) ].
Proof.
  unfold simple_df. rewrite show_datatable_df_other_label by (cbn; discriminate).
  now rewrite length_y_vals, length_t_plot, Nat.eqb_refl.
Qed.

(** ** The header row of generate_pdf_report *)

Lemma In_replace_from (old new : list N) (skip : nat) (s : list N) (x : N) :
  In x (replace_from old new skip s) -> In x s \/ In x new.
Proof.
  revert skip. induction s as [| c rest IH]; intros skip Hin; [destruct Hin |].
  cbn [replace_from] in Hin. destruct skip as [| k].
  - destruct (startswith old (c :: rest)).
    + apply in_app_or in Hin. destruct Hin as [Hin | Hin]; [now right |].
      destruct (IH _ Hin) as [H | H]; [left; now right | now right].
    + destruct Hin as [<- | Hin]; [left; now left |].
      destruct (IH _ Hin) as [H | H]; [left; now right | now right].
  - destruct (IH _ Hin) as [H | H]; [left; now right | now right].
Qed.

Lemma In_str_replace (s old new : list N) (x : N) :
  old <> [] -> In x (str_replace s old new) -> In x s \/ In x new.
Proof.
  intros Hold. unfold str_replace. destruct old as [| o old']; [contradiction |].
  apply In_replace_from.
Qed.

Lemma str_replace_deletes (s : list N) (c : N) : ~ In c (str_replace s [c] []).
Proof.
  unfold str_replace. induction s as [| x rest IH]; [intros [] |].
  cbn [replace_from startswith length Nat.sub]. rewrite andb_true_r.
  destruct (N.eqb_spec c x) as [-> | Hne]; cbn [app].
  - exact IH.
  - intros [Heq | Hin]; [congruence | contradiction].
Qed.

Lemma replace_pair_step (a b a' c : N) (s : list N) :
  replace_from [a; b] [a'; b] 0 (c :: s)
  = match s with
    | d :: s' =>
        if N.eqb a c && N.eqb b d
        then a' :: b :: replace_from [a; b] [a'; b] 0 s'
        else c :: replace_from [a; b] [a'; b] 0 s
    | [] => [c]
    end.
Proof.
  cbn [replace_from startswith length Nat.sub]. destruct s as [| d s'].
  - rewrite andb_false_r. reflexivity.
  - rewrite andb_true_r. destruct (N.eqb a c && N.eqb b d); reflexivity.
Qed.

Lemma no_pair_cons (a b x : N) (l : list N) :
  ~ (x = a /\ hd_error l = Some b) ->
  (forall pre post, l <> pre ++ a :: b :: post) ->
  forall pre post, x :: l <> pre ++ a :: b :: post.
Proof.
  intros Hhd Hl [| y pre] post Heq; cbn [app] in Heq.
  - injection Heq as -> ->. apply Hhd. split; reflexivity.
  - injection Heq as _ Heq. exact (Hl _ _ Heq).
Qed.

Lemma replace_pair_clean (a b a' : N) (n : nat) (s : list N) :
  a' <> a -> a' <> b -> b <> a -> (length s <= n)%nat ->
  (forall pre post, replace_from [a; b] [a'; b] 0 s <> pre ++ a :: b :: post) /\
  (hd_error (replace_from [a; b] [a'; b] 0 s) = Some b -> hd_error s = Some b).
Proof.
  intros Ha' Ha'b Hb. revert s. induction n as [| n IH]; intros s Hlen.
  - destruct s; [| cbn in Hlen; lia]. split; [| intros H; exact H].
    intros [| y pre] post H; discriminate H.
  - destruct s as [| c s]; [split; [intros [| y pre] post H; discriminate H | intros H; exact H] |].
    cbn [length] in Hlen. rewrite replace_pair_step. destruct s as [| d s'].
    + split; [| intros H; exact H].
      intros [| y [| z pre]] post H; discriminate H.
    + destruct (N.eqb_spec a c) as [<- | Hac]; cbn [andb].
      * destruct (N.eqb_spec b d) as [<- | Hbd].
        -- destruct (IH s' ltac:(cbn [length] in Hlen; lia)) as [IHp IHh]. split.
           ++ apply no_pair_cons; [intros [H _]; contradiction |].
              apply no_pair_cons; [intros [H _]; contradiction | exact IHp].
           ++ cbn [hd_error]. intros [= H]. contradiction.
        -- destruct (IH (d :: s') ltac:(cbn [length] in *; lia)) as [IHp IHh]. split.
           ++ apply no_pair_cons; [| exact IHp].
              intros [_ H]. apply IHh in H. cbn [hd_error] in H. congruence.
           ++ cbn [hd_error]. intros H. exact H.
      * destruct (IH (d :: s') ltac:(cbn [length] in *; lia)) as [IHp IHh]. split.
        -- apply no_pair_cons; [| exact IHp]. intros [H _]. congruence.
        -- cbn [hd_error]. intros H. exact H.
Qed.

Lemma firstn_no_pair (a b : N) (n : nat) (l : list N) :
  (forall pre post, l <> pre ++ a :: b :: post) ->
  forall pre post, firstn n l <> pre ++ a :: b :: post.
Proof.
  intros Hl pre post Heq. apply (Hl pre (post ++ skipn n l)).
  rewrite <- (firstn_skipn n l) at 1. rewrite Heq, <- app_assoc. reflexivity.
Qed.

Lemma In_firstn (n : nat) (l : list N) (x : N) : In x (firstn n l) -> In x l.
Proof.
  intros H. rewrite <- (firstn_skipn n l). apply in_or_app. now left.
Qed.

(** X26: a header cell of the PDF has at most 20 characters and contains
    no parenthesis and no "e-" (the text "e-" of the column name is written
    "E-"). *)
Theorem header_cell_clean (col : list N) :
  (length (header_cell col) <= 20)%nat /\
  ~ In (ord "(") (header_cell col) /\
  ~ In (ord ")") (header_cell col) /\
  (forall pre post, header_cell col <> pre ++ [ord "e"; ord "-"] ++ post).
Proof.
  unfold header_cell. split; [| split; [| split]].
  - rewrite length_firstn. lia.
  - intros H. apply In_firstn in H. unfold clean_col in H.
    apply In_str_replace in H; [| discriminate]. destruct H as [H | H].
    + apply In_str_replace in H; [| discriminate]. destruct H as [H | []].
      exact (str_replace_deletes _ _ H).
    + vm_compute in H. destruct H as [H | [H | []]]; discriminate H.
  - intros H. apply In_firstn in H. unfold clean_col in H.
    apply In_str_replace in H; [| discriminate]. destruct H as [H | H].
    + exact (str_replace_deletes _ _ H).
    + vm_compute in H. destruct H as [H | [H | []]]; discriminate H.
  - apply firstn_no_pair. unfold clean_col, str_replace at 1.
    eapply replace_pair_clean; [discriminate | discriminate | discriminate | reflexivity].
Qed.

(** ** Witnesses of the equivalences and of the header row *)

Lemma convert_keeps_order_witness :
  convert_time_to_years 1 "horas" < convert_time_to_years 2 "horas".
Proof. apply (convert_keeps_order 1 2 "horas"). lra. Defined.

Lemma remove_changes_iff_witness :
  fst (render_manager_remove "Iodo-131" DEFAULT_ISOTOPES) <> DEFAULT_ISOTOPES.
Proof.
  apply (remove_changes_iff "Iodo-131" DEFAULT_ISOTOPES). split.
  - rewrite size_DEFAULT_ISOTOPES. lia.
  - eexists. reflexivity.
Defined.

Lemma header_cell_clean_witness :
  let col := map ord (String.list_ascii_of_string "Quantidade (g) 1e-3 (extra long)") in
  (length (header_cell col) <= 20)%nat /\ ~ In (ord "(") (header_cell col).
Proof.
  intros col. destruct (header_cell_clean col) as (Hlen & Hpar & _).
  split; [exact Hlen | exact Hpar].
Defined.

(** ** A remark on the defaults *)

Lemma ln_2_gt_half : 1 / 2 < ln 2.
Proof.
  apply exp_lt_inv. rewrite exp_ln by lra.
  pose proof exp_le_3 as H3. pose proof (exp_pos (1 / 2)) as Hp.
  replace 1 with (1 / 2 + 1 / 2) in H3 by lra. rewrite exp_plus in H3. nra.
Qed.

(** The defaults are not all of the form that "Salvar" stores: saving
    "Bário-137m" again with its own half-life (2.55 minutes) and weight
    replaces the decay constant 236.6 by one above 100000. *)
Example resaving_bario_changes_lambda :
  exists iso : Isotope,
    fst (render_manager_add "Bário-137m" 136.9 2.55 "minutos" DEFAULT_ISOTOPES)
      !! "Bário-137m" = Some iso /\
    100000 < lambda iso /\
    DEFAULT_ISOTOPES !! "Bário-137m" = Some (mkIsotope 236.6 2.55 "minutos" 136.9).
Proof.
  rewrite render_manager_add_named by discriminate. cbn zeta. cbn [fst].
  rewrite lookup_insert_eq. eexists. split; [reflexivity |]. split; [| reflexivity].
  cbn [lambda]. unfold convert_time_to_years. cbn [dict_get CONVERSIONS_TO_YEARS String.eqb Ascii.eqb Bool.eqb].
  destruct (Rgt_dec _ _) as [_ | H]; [| exfalso; apply H; lra].
  pose proof ln_2_gt_half as Hln.
  set (d := 2.55 * (1 / (365.25 * 24 * 60))).
  assert (Hd : 0 < d /\ 100000 * d < 1 / 2) by (unfold d; lra).
  apply (Rmult_lt_reg_r d); [apply Hd |].
  replace (ln 2 / d * d) with (ln 2) by (field; lra). lra.
Qed.
